(** * Order lifecycle: mock data seeding and the status/label thunk

    A shallow embedding of the order, shipment and document records of
    [utils/mockData], of the module-level seeding loops that build
    [MOCK_ORDERS], [MOCK_SHIPMENTS] and [MOCK_DOCUMENTS], and of the
    [orderSlice] reducer [updateOrderStatus] with the thunk
    [updateOrderStatusAndGenerateLabel].

    JavaScript objects used as dictionaries are finite maps keyed by
    strings.  Readings of the outside world ([Math.random], [new Date()],
    [uuidv4()], a throwing [localStorage.setItem]) are supplied by explicit
    environment records, so every definition below is a function that can be
    evaluated. *)

From Stdlib Require Import Ascii.
From stdpp Require Import gmap strings list fin_maps pretty.

Local Open Scope string_scope.

(** ** String helpers mirroring the JavaScript string methods in use *)

Module JsString.

(** [s.split(sep)] for a one-character separator. *)
Fixpoint split (sep : ascii) (s : string) : list string :=
  match s with
  | EmptyString => [EmptyString]
  | String c s' =>
      if Ascii.eqb c sep then EmptyString :: split sep s'
      else match split sep s' with
           | seg :: rest => String c seg :: rest
           | [] => [String c EmptyString]
           end
  end.

(** The ASCII white space removed by [trim]. *)
Definition is_space (c : ascii) : bool :=
  let n := nat_of_ascii c in
  (n =? 32)%nat || ((9 <=? n)%nat && (n <=? 13)%nat).

Fixpoint trimStart (s : string) : string :=
  match s with
  | EmptyString => EmptyString
  | String c s' => if is_space c then trimStart s' else s
  end.

Fixpoint trimEnd (s : string) : string :=
  match s with
  | EmptyString => EmptyString
  | String c s' =>
      match trimEnd s' with
      | EmptyString => if is_space c then EmptyString else String c EmptyString
      | t => String c t
      end
  end.

Definition trim (s : string) : string := trimEnd (trimStart s).

Definition upper_char (c : ascii) : ascii :=
  let n := nat_of_ascii c in
  if (97 <=? n)%nat && (n <=? 122)%nat then ascii_of_nat (n - 32) else c.

Definition lower_char (c : ascii) : ascii :=
  let n := nat_of_ascii c in
  if (65 <=? n)%nat && (n <=? 90)%nat then ascii_of_nat (n + 32) else c.

Fixpoint map_chars (f : ascii → ascii) (s : string) : string :=
  match s with
  | EmptyString => EmptyString
  | String c s' => String (f c) (map_chars f s')
  end.

Definition toUpperCase : string → string := map_chars upper_char.
Definition toLowerCase : string → string := map_chars lower_char.

(** [arr.slice(start, stop)] with JavaScript's treatment of negative
    indices: a negative index counts from the end and is clamped at 0. *)
Definition clamp_index (len i : Z) : Z :=
  if (i <? 0)%Z then Z.max (len + i) 0 else Z.min i len.

Definition slice {A} (start stop : Z) (l : list A) : list A :=
  let len := Z.of_nat (length l) in
  let from := clamp_index len start in
  let to := clamp_index len stop in
  take (Z.to_nat (to - from)) (drop (Z.to_nat from) l).

End JsString.

(** ** Entities (the interfaces of [utils/mockData]) *)

Record Product := mkProduct {
  product_name : string;
  dimensions : string;
  weight : string;
  quantity : N
}.

(** [order_status] is typed ['OPEN' | 'SHIPPED' | 'DELIVERED'] but the thunk
    writes an arbitrary [string] into it through an unchecked cast, so the
    field holds a string at run time. *)
Record Order := mkOrder {
  order_id : string;
  order_placed_timestamp : string;
  order_status : string;
  product : Product;
  customer_address : string;
  warehouse_address : string;
  seller_address : string
}.

Inductive DocType := Invoice | PackingList | CertificateOfOrigin | Label.
Inductive DocStatus := Draft | Final | Approved | Rejected.

Record Document := mkDocument {
  doc_id : string;
  orderId : string;
  doc_name : string;
  doc_type : DocType;
  date : string;
  doc_size : string;
  doc_status : DocStatus;
  url : string;
  doc_carrier : option string;
  trackingNumber : option string
}.

Inductive ShipmentStatus :=
  | OrderReceived | OrderPicked | OrderInTransit | OutForDelivery
  | ReachedDestination.

Record TrackingEvent := mkTrackingEvent {
  ev_id : string;
  timestamp : string;
  location : string;
  ev_status : string;
  description : string;
  ev_type : ShipmentStatus
}.

Record Shipment := mkShipment {
  shp_id : string;
  tracking_number : string;
  shp_orderId : string;
  origin : string;
  destination : string;
  shp_status : ShipmentStatus;
  carrier : string;
  shp_type : string;
  eta : string;
  lastUpdate : string;
  progress : Z;
  tracking : list TrackingEvent
}.

#[global] Instance DocType_eq_dec : EqDecision DocType.
Proof. solve_decision. Defined.
#[global] Instance DocStatus_eq_dec : EqDecision DocStatus.
Proof. solve_decision. Defined.
#[global] Instance ShipmentStatus_eq_dec : EqDecision ShipmentStatus.
Proof. solve_decision. Defined.
#[global] Instance Product_eq_dec : EqDecision Product.
Proof. solve_decision. Defined.
#[global] Instance Order_eq_dec : EqDecision Order.
Proof. solve_decision. Defined.
#[global] Instance Document_eq_dec : EqDecision Document.
Proof. solve_decision. Defined.
#[global] Instance TrackingEvent_eq_dec : EqDecision TrackingEvent.
Proof. solve_decision. Defined.
#[global] Instance Shipment_eq_dec : EqDecision Shipment.
Proof. solve_decision. Defined.

(** The string a [type] literal stands for. *)
Definition doc_type_name (t : DocType) : string :=
  match t with
  | Invoice => "Invoice"
  | PackingList => "Packing List"
  | CertificateOfOrigin => "Certificate of Origin"
  | Label => "Label"
  end.

Definition shipment_status_name (s : ShipmentStatus) : string :=
  match s with
  | OrderReceived => "Order Received"
  | OrderPicked => "Order Picked"
  | OrderInTransit => "Order in Transit"
  | OutForDelivery => "Out For Delivery"
  | ReachedDestination => "Reached Destination"
  end.

Definition OPEN : string := "OPEN".
Definition SHIPPED : string := "SHIPPED".
Definition DELIVERED : string := "DELIVERED".

(** ** Module-level seeding ([utils/mockData]) *)

Definition destinations : list string :=
  [ "John Smith, 123 Main Street, New York, NY 10001, USA";
    "Emily Roberts, 45 Victoria Street, Manchester, M2 3NH, United Kingdom";
    "James Cook, 78 Digital Avenue, Sydney, NSW 2000, Australia" ].

Definition warehouseAddress : string :=
  "GADA RETAIL PRIVATE LIMITED, Suburb Residency Private Limited Plot No 01, Omshree Industrial Park PO, PS -, MUMBAI, 400001, INDIA".

(** The value of [Math.floor(Math.random() * 3)]. *)
Inductive Draw3 := D0 | D1 | D2.

Definition draw3_index (d : Draw3) : nat :=
  match d with D0 => 0 | D1 => 1 | D2 => 2 end.

(** What one iteration of the order loop reads from the outside world:
    [placed_iso] is [timestamp.toISOString()] after the clock reading has
    been moved back by the drawn number of days. *)
Record OrderDraw := mkOrderDraw {
  placed_iso : string;
  quantity_draw : Draw3;
  destination_draw : Draw3
}.

(** What one iteration of the shipment loop reads: the carrier index, the
    value of [Math.floor(100000 + Math.random() * 900000)] and two
    [uuidv4()] results. *)
Record ShipmentDraw := mkShipmentDraw {
  carrier_draw : Draw3;
  tracking_draw : N;
  uuid_first : string;
  uuid_second : string
}.

Record SeedEnv := mkSeedEnv {
  load_iso : string;                   (* new Date().toISOString() of the open order *)
  order_draw : nat → OrderDraw;        (* indexed by the loop counter i = 1 .. 29 *)
  shipment_draw : nat → ShipmentDraw   (* indexed by the position in Object.keys *)
}.

Definition phone : string := "Samsung Galaxy S23 Ultra 512GB Phantom Black".

Definition open_order (env : SeedEnv) : Order :=
  {| order_id := "ORD340001";
     order_placed_timestamp := load_iso env;
     order_status := "OPEN";
     product := {| product_name := phone;
                   dimensions := "16.39 x 7.89 x 0.89 cm";
                   weight := "234g";
                   quantity := 2 |};
     customer_address := nth 0 destinations "";
     warehouse_address := warehouseAddress;
     seller_address := warehouseAddress |}.

Definition past_order (env : SeedEnv) (i : nat) : Order :=
  let orderNumber := (340002 + N.of_nat i)%N in
  let d := order_draw env i in
  {| order_id := "ORD" +:+ pretty orderNumber;
     order_placed_timestamp := placed_iso d;
     order_status := "DELIVERED";
     product := {| product_name := phone;
                   dimensions := "16.39 x 7.89 x 0.89 cm";
                   weight := "234g";
                   quantity := N.of_nat (draw3_index (quantity_draw d)) + 1 |};
     customer_address := nth (draw3_index (destination_draw d)) destinations "";
     warehouse_address := warehouseAddress;
     seller_address := warehouseAddress |}.

(** The assignments to [MOCK_ORDERS], in program order: the literal entry,
    then the loop [for (let i = 1; i <= 29; i++)]. *)
Definition MOCK_ORDERS_entries (env : SeedEnv) : list (string * Order) :=
  ("ORD340001", open_order env)
    :: map (λ i, let o := past_order env i in (order_id o, o)) (seq 1 29).

Definition assign {V} (m : gmap string V) (kv : string * V) : gmap string V :=
  <[kv.1 := kv.2]> m.

Definition MOCK_ORDERS (env : SeedEnv) : gmap string Order :=
  foldl assign ∅ (MOCK_ORDERS_entries env).

(** [Object.keys(MOCK_ORDERS)]: the keys are pairwise distinct and none is an
    array index, so they come in insertion order. *)
Definition MOCK_ORDERS_keys (env : SeedEnv) : list string :=
  (MOCK_ORDERS_entries env).*1.

(** A [forEach] whose callback may throw: [None] is the uncaught exception. *)
Definition forEach_throwing {A S} (f : S → A → option S) (l : list A) (s : S)
  : option S :=
  foldl (λ acc x, acc ≫= λ s', f s' x) (Some s) l.

(** [order.customer_address.split(',').slice(-2, -1)[0].trim()]; [None]
    when the slice is empty and [.trim()] is called on [undefined]. *)
Definition destination_of (address : string) : option string :=
  JsString.trim <$> head (JsString.slice (-2) (-1) (JsString.split "," address)).

Definition seed_status (orderId : string) (order : Order) : ShipmentStatus :=
  if String.eqb orderId "ORD340001" then OrderReceived
  else if String.eqb (order_status order) "DELIVERED" then ReachedDestination
  else OrderInTransit.

Definition seed_text (orderId : string) (order : Order) : string :=
  if String.eqb orderId "ORD340001" then "Order received and processing"
  else if String.eqb (order_status order) "DELIVERED" then "Package delivered"
  else "Package in transit".

Definition seed_progress (orderId : string) (order : Order) : Z :=
  if String.eqb orderId "ORD340001" then 20
  else if String.eqb (order_status order) "DELIVERED" then 100
  else 60.

Definition carriers : list string := ["DHL Express"; "FedEx"; "UPS"].

(** The object literal assigned to [MOCK_SHIPMENTS[shipmentId]], for a given
    value of the [destination] expression.  [eta] re-parses and re-prints the
    ISO timestamp of the order, which leaves it as it is. *)
Definition shipment_record (orderId : string) (order : Order) (d : ShipmentDraw)
    (dest : string) : Shipment :=
  {| shp_id := "SHP-" +:+ orderId;
     tracking_number := "TRK" +:+ pretty (tracking_draw d);
     shp_orderId := orderId;
     origin := "Mumbai, India";
     destination := dest;
     shp_status := seed_status orderId order;
     carrier := nth (draw3_index (carrier_draw d)) carriers "";
     shp_type := "Express Air Freight";
     eta := order_placed_timestamp order;
     lastUpdate := seed_text orderId order;
     progress := seed_progress orderId order;
     tracking :=
       [ {| ev_id := uuid_first d;
            timestamp := order_placed_timestamp order;
            location := "Mumbai, India";
            ev_status := "Order Received";
            description := "Order has been received";
            ev_type := OrderReceived |};
         {| ev_id := uuid_second d;
            timestamp := order_placed_timestamp order;
            location := "Mumbai, India";
            ev_status := shipment_status_name (seed_status orderId order);
            description := seed_text orderId order;
            ev_type := seed_status orderId order |} ] |}.

Definition seedShipment (orderId : string) (order : Order) (d : ShipmentDraw)
  : option Shipment :=
  shipment_record orderId order d <$> destination_of (customer_address order).

(** One iteration of [Object.keys(MOCK_ORDERS).forEach((orderId) => ...)]
    over the shipments; the state carries the position in the key list. *)
Definition shipment_step (env : SeedEnv) (st : nat * gmap string Shipment)
    (orderId : string) : option (nat * gmap string Shipment) :=
  order ← MOCK_ORDERS env !! orderId;
  s ← seedShipment orderId order (shipment_draw env st.1);
  Some (S st.1, <["SHP-" +:+ orderId := s]> st.2).

Definition MOCK_SHIPMENTS (env : SeedEnv) : option (gmap string Shipment) :=
  snd <$> forEach_throwing (shipment_step env) (MOCK_ORDERS_keys env) (0, ∅).

Definition docTypes : list DocType := [Invoice; PackingList; CertificateOfOrigin].

Definition s3_prefix : string :=
  "https://aws-exportedge-dev-order-processing-bucket.s3.us-east-1.amazonaws.com/orders_docs/".

Definition standard_document (orderId : string) (order : Order) (type : DocType)
  : Document :=
  let docId := "DOC-" +:+ orderId +:+ "-" +:+ JsString.toUpperCase (doc_type_name type) in
  {| doc_id := docId;
     orderId := orderId;
     doc_name := doc_type_name type;
     doc_type := type;
     date := order_placed_timestamp order;
     doc_size := "245 KB";
     doc_status := Final;
     url := if String.eqb orderId "ORD340001"
            then s3_prefix +:+ "1example/ORD34001_invoice.pdf"
            else s3_prefix +:+ orderId +:+ "/" +:+ orderId +:+ "_"
                   +:+ JsString.toLowerCase (doc_type_name type) +:+ ".pdf";
     doc_carrier := None;
     trackingNumber := None |}.

Definition label_url (orderId : string) : string :=
  s3_prefix +:+ orderId +:+ "/" +:+ orderId +:+ "_label.pdf".

Definition label_id (orderId : string) : string := "DOC-" +:+ orderId +:+ "-LABEL".

Definition seeded_label (orderId : string) (order : Order) (shipment : Shipment)
  : Document :=
  {| doc_id := label_id orderId;
     orderId := orderId;
     doc_name := "Shipping Label";
     doc_type := Label;
     date := order_placed_timestamp order;
     doc_size := "125 KB";
     doc_status := Final;
     url := label_url orderId;
     doc_carrier := Some (carrier shipment);
     trackingNumber := Some (tracking_number shipment) |}.

Definition add_document (docs : gmap string Document) (d : Document)
  : gmap string Document :=
  <[doc_id d := d]> docs.

(** One iteration of the document loop: the three standard documents, then
    the label when the order is DELIVERED. *)
Definition document_step (env : SeedEnv) (shipments : gmap string Shipment)
    (docs : gmap string Document) (orderId : string)
  : option (gmap string Document) :=
  order ← MOCK_ORDERS env !! orderId;
  let docs' := foldl (λ m type, add_document m (standard_document orderId order type))
                     docs docTypes in
  if String.eqb (order_status order) "DELIVERED" then
    shipment ← shipments !! ("SHP-" +:+ orderId);
    Some (add_document docs' (seeded_label orderId order shipment))
  else Some docs'.

Definition MOCK_DOCUMENTS (env : SeedEnv) (shipments : gmap string Shipment)
  : option (gmap string Document) :=
  forEach_throwing (document_step env shipments) (MOCK_ORDERS_keys env) ∅.

(** ** The store and its reducers *)

(** An entry of the object written to [localStorage]: the spread
    [{...MOCK_ORDERS[orderId], order_status: status}] is a whole order when
    the id is a key of [MOCK_ORDERS] and an object with the single field
    [order_status] when it is not. *)
Inductive PersistedOrder :=
  | FullOrder (o : Order)
  | StatusOnly (status : string).

#[global] Instance PersistedOrder_eq_dec : EqDecision PersistedOrder.
Proof. solve_decision. Defined.

Record Store := mkStore {
  orders : gmap string Order;                 (* state.orders.orders *)
  shipments : gmap string Shipment;           (* the shipment records *)
  documents : gmap string Document;           (* the document records *)
  localStorage_orders : option (gmap string PersistedOrder)
                                              (* localStorage item 'orders' *)
}.

Definition with_status (status : string) (o : Order) : Order :=
  {| order_id := order_id o;
     order_placed_timestamp := order_placed_timestamp o;
     order_status := status;
     product := product o;
     customer_address := customer_address o;
     warehouse_address := warehouse_address o;
     seller_address := seller_address o |}.

(** The reducer [updateOrderStatus] of [orderSlice]: the write is guarded by
    [if (state.orders[orderId])] and nothing else. *)
Definition updateOrderStatus (orderId status : string) (os : gmap string Order)
  : gmap string Order :=
  match os !! orderId with
  | Some o => <[orderId := with_status status o]> os
  | None => os
  end.

(** Modelled from the spec: the reducer [addShippingLabel] of [documentSlice],
    which is imported by [orderSlice] but whose file is not part of the
    sources.  The store's [put] is an upsert that overwrites, and documents
    are keyed by their id. *)
Definition addShippingLabel (label : Document) (docs : gmap string Document)
  : gmap string Document :=
  <[doc_id label := label]> docs.

(** The store as it stands when the modules have been loaded: the order slice
    starts from [MOCK_ORDERS], and the shipment and document collections are
    the seeded [MOCK_SHIPMENTS] and [MOCK_DOCUMENTS]; nothing is persisted
    yet. *)
Definition initial_store (env : SeedEnv) : option Store :=
  shps ← MOCK_SHIPMENTS env;
  docs ← MOCK_DOCUMENTS env shps;
  Some {| orders := MOCK_ORDERS env;
          shipments := shps;
          documents := docs;
          localStorage_orders := None |}.

(** ** Effects: a state monad with exceptions and a log of dispatches *)

Inductive Outcome (A : Type) :=
  | Returned (a : A)
  | Thrown.
Arguments Returned {A} a.
Arguments Thrown {A}.

(** [published] lists, oldest first, the store states the subscribers were
    notified of: one per completed [dispatch]. *)
Record Run (A : Type) := mkRun {
  outcome : Outcome A;
  final : Store;
  published : list Store
}.
Arguments mkRun {A}.
Arguments outcome {A}.
Arguments final {A}.
Arguments published {A}.

Definition Eff (A : Type) : Type := Store → Run A.

Definition ret {A} (a : A) : Eff A := λ s, mkRun (Returned a) s [].

Definition throw {A} : Eff A := λ s, mkRun Thrown s [].

Definition bind {A B} (m : Eff A) (k : A → Eff B) : Eff B :=
  λ s,
    let r := m s in
    match outcome r with
    | Returned a =>
        let r' := k a (final r) in
        mkRun (outcome r') (final r') (published r ++ published r')
    | Thrown => mkRun Thrown (final r) (published r)
    end.

(** [try { body } catch (error) { handler }]: the handler runs in the state
    the body left behind. *)
Definition try_catch {A} (body handler : Eff A) : Eff A :=
  λ s,
    let r := body s in
    match outcome r with
    | Returned a => r
    | Thrown =>
        let r' := handler (final r) in
        mkRun (outcome r') (final r') (published r ++ published r')
    end.

Notation "m >> k" := (bind m (λ _, k))
  (at level 100, k at level 200, right associativity).

(** What one call of the thunk reads from the outside world. *)
Record ThunkEnv := mkThunkEnv {
  random_tracking : N;      (* Math.floor(100000 + Math.random() * 900000) *)
  clock_iso : string;       (* new Date().toISOString() *)
  label_dispatch_throws : bool;  (* dispatch(addShippingLabel(...)) throws *)
  setItem_throws : bool     (* localStorage.setItem throws *)
}.

(** The three writes of the thunk, as store transformers. *)
Definition write_orders (f : gmap string Order → gmap string Order) (s : Store)
  : Store :=
  {| orders := f (orders s);
     shipments := shipments s;
     documents := documents s;
     localStorage_orders := localStorage_orders s |}.

Definition write_documents (f : gmap string Document → gmap string Document)
    (s : Store) : Store :=
  {| orders := orders s;
     shipments := shipments s;
     documents := f (documents s);
     localStorage_orders := localStorage_orders s |}.

Definition write_localStorage (value : gmap string PersistedOrder) (s : Store)
  : Store :=
  {| orders := orders s;
     shipments := shipments s;
     documents := documents s;
     localStorage_orders := Some value |}.

(** [dispatch(action)]: the reducer runs, then the subscribers see the new
    state. *)
Definition dispatch_updateOrderStatus (orderId status : string) : Eff unit :=
  λ s,
    let s' := write_orders (updateOrderStatus orderId status) s in
    mkRun (Returned ()) s' [s'].

Definition dispatch_addShippingLabel (env : ThunkEnv) (label : Document)
  : Eff unit :=
  λ s,
    if label_dispatch_throws env then mkRun Thrown s []
    else
      let s' := write_documents (addShippingLabel label) s in
      mkRun (Returned ()) s' [s'].

Definition localStorage_setItem_orders (env : ThunkEnv)
    (value : gmap string PersistedOrder) : Eff unit :=
  λ s,
    if setItem_throws env then mkRun Thrown s []
    else mkRun (Returned ()) (write_localStorage value s) [].

(** ** The thunk of [orderSlice] *)

(** The local constant [shipment] of the thunk. *)
Record CarrierInfo := mkCarrierInfo {
  ci_carrier : string;
  ci_tracking_number : string
}.

Definition thunk_shipment (env : ThunkEnv) (orderId : string) : CarrierInfo :=
  if String.eqb orderId "ORD34001"
  then {| ci_carrier := "DHL Express"; ci_tracking_number := "DHL7890123456" |}
  else {| ci_carrier := "FedEx";
          ci_tracking_number := "TRK" +:+ pretty (random_tracking env) |}.

Definition thunk_label (env : ThunkEnv) (orderId : string) : Document :=
  let shipment := thunk_shipment env orderId in
  {| doc_id := label_id orderId;
     orderId := orderId;
     doc_name := "Shipping Label";
     doc_type := Label;
     date := clock_iso env;
     doc_size := "125 KB";
     doc_status := Final;
     url := label_url orderId;
     doc_carrier := Some (ci_carrier shipment);
     trackingNumber := Some (ci_tracking_number shipment) |}.

(** [{...MOCK_ORDERS, [orderId]: {...MOCK_ORDERS[orderId], order_status}}] *)
Definition updatedOrders (MOCK : gmap string Order) (orderId status : string)
  : gmap string PersistedOrder :=
  <[orderId := match MOCK !! orderId with
               | Some o => FullOrder (with_status status o)
               | None => StatusOnly status
               end]> (FullOrder <$> MOCK).

(** [MOCK] is the module constant [MOCK_ORDERS] the thunk spreads into the
    persisted object. *)
Definition updateOrderStatusAndGenerateLabel (MOCK : gmap string Order)
    (env : ThunkEnv) (orderId status : string) : Eff bool :=
  try_catch
    (dispatch_updateOrderStatus orderId status >>
     dispatch_addShippingLabel env (thunk_label env orderId) >>
     localStorage_setItem_orders env (updatedOrders MOCK orderId status) >>
     ret true)
    (ret false).

(** ** Views of the store used by the statements *)

Definition documents_of (oid : string) (docs : gmap string Document)
  : list Document :=
  filter (λ d, orderId d = oid) (map_to_list docs).*2.

Definition labels_of (oid : string) (docs : gmap string Document)
  : list Document :=
  filter (λ d, doc_type d = Label) (documents_of oid docs).

Definition shipments_of (oid : string) (shps : gmap string Shipment)
  : list Shipment :=
  filter (λ s, shp_orderId s = oid) (map_to_list shps).*2.

Definition hasLabelDocument (oid : string) (docs : gmap string Document) : bool :=
  bool_decide (labels_of oid docs ≠ []).

(** ** A concrete load of the application *)

Definition demo_seed : SeedEnv :=
  {| load_iso := "2024-11-20T10:15:30.000Z";
     order_draw := λ i,
       {| placed_iso := "2024-11-05T10:15:30.000Z";
          quantity_draw := D1;
          destination_draw := D2 |};
     shipment_draw := λ i,
       {| carrier_draw := D2;
          tracking_draw := 482913 + N.of_nat i;
          uuid_first := "1b9d6bcd-bbfd-4b2d-9b5d-ab8dfbbd" +:+ pretty (1000 + 2 * N.of_nat i)%N;
          uuid_second := "1b9d6bcd-bbfd-4b2d-9b5d-ab8dfbbd" +:+ pretty (1001 + 2 * N.of_nat i)%N |} |}.


Definition demo_MOCK : gmap string Order := MOCK_ORDERS demo_seed.

(** A call in which nothing throws. *)
Definition demo_call : ThunkEnv :=
  {| random_tracking := 555555;
     clock_iso := "2024-11-21T08:00:00.000Z";
     label_dispatch_throws := false;
     setItem_throws := false |}.

(** A retry of the same call: a later clock reading and a fresh draw. *)
Definition demo_retry : ThunkEnv :=
  {| random_tracking := 777777;
     clock_iso := "2024-11-21T08:00:05.000Z";
     label_dispatch_throws := false;
     setItem_throws := false |}.

(** A call in which the label dispatch throws. *)
Definition demo_label_failure : ThunkEnv :=
  {| random_tracking := 555555;
     clock_iso := "2024-11-21T08:00:00.000Z";
     label_dispatch_throws := true;
     setItem_throws := false |}.

(** A call in which [localStorage.setItem] throws (storage full or
    disabled). *)
Definition demo_storage_failure : ThunkEnv :=
  {| random_tracking := 555555;
     clock_iso := "2024-11-21T08:00:00.000Z";
     label_dispatch_throws := false;
     setItem_throws := true |}.

(** A call at the same clock reading as [demo_call] with another draw. *)
Definition demo_call_other_draw : ThunkEnv :=
  {| random_tracking := 202020;
     clock_iso := "2024-11-21T08:00:00.000Z";
     label_dispatch_throws := false;
     setItem_throws := false |}.

(** Another load of the application: the same clock and order draws, other
    draws in the shipment loop. *)
Definition demo_seed_other : SeedEnv :=
  {| load_iso := load_iso demo_seed;
     order_draw := order_draw demo_seed;
     shipment_draw := λ i,
       {| carrier_draw := D0;
          tracking_draw := 731000 + N.of_nat i;
          uuid_first := "9c5b94b1-35ad-49bb-b118-8e8fc24a" +:+ pretty (1000 + 2 * N.of_nat i)%N;
          uuid_second := "9c5b94b1-35ad-49bb-b118-8e8fc24a" +:+ pretty (1001 + 2 * N.of_nat i)%N |} |}.

(** A load that differs from [demo_seed] only in readings no loop makes. *)
Definition demo_seed_unread : SeedEnv :=
  {| load_iso := load_iso demo_seed;
     order_draw := λ i,
       if (i =? 0)%nat
       then {| placed_iso := "1999-01-01T00:00:00.000Z";
               quantity_draw := D0;
               destination_draw := D0 |}
       else order_draw demo_seed i;
     shipment_draw := λ j,
       if (30 <=? j)%nat
       then {| carrier_draw := D1; tracking_draw := 100000;
               uuid_first := ""; uuid_second := "" |}
       else shipment_draw demo_seed j |}.

(** ** The statements of the specification, as predicates on the model *)

(** The successor relation of the lifecycle OPEN → SHIPPED → DELIVERED. *)
Definition is_successor (current next : string) : bool :=
  (String.eqb current OPEN && String.eqb next SHIPPED)
  || (String.eqb current SHIPPED && String.eqb next DELIVERED).

(** A run fails when the thunk resolves to [false]. *)
Definition failed (r : Run bool) : Prop := outcome r = Returned false.
Definition succeeded (r : Run bool) : Prop := outcome r = Returned true.

(** All-or-nothing: a failed run leaves the store as it found it. *)
Definition spec_atomic (MOCK : gmap string Order) (env : ThunkEnv)
    (oid status : string) (s : Store) : Prop :=
  let r := updateOrderStatusAndGenerateLabel MOCK env oid status s in
  failed r →
  orders (final r) = orders s ∧ shipments (final r) = shipments s
  ∧ documents (final r) = documents s.

(** A Label exists exactly for the orders that have left OPEN. *)
Definition spec_label_invariant (s : Store) : Prop :=
  ∀ oid o, orders s !! oid = Some o →
    hasLabelDocument oid (documents s) = bool_decide (order_status o ≠ OPEN).

(** The equivalence holds in every state a run lets the subscribers see. *)
Definition spec_label_invariant_always (MOCK : gmap string Order)
    (env : ThunkEnv) (oid status : string) (s : Store) : Prop :=
  spec_label_invariant s →
  ∀ s', s' ∈ published (updateOrderStatusAndGenerateLabel MOCK env oid status s) →
    spec_label_invariant s'.

(** An illegal transition fails and changes nothing. *)
Definition spec_rejects_illegal (MOCK : gmap string Order) (env : ThunkEnv)
    (oid next : string) (s : Store) : Prop :=
  ∀ o, orders s !! oid = Some o →
    is_successor (order_status o) next = false →
    let r := updateOrderStatusAndGenerateLabel MOCK env oid next s in
    failed r ∧ final r = s.

(** A retry of the advance to SHIPPED ends in the state of the first call. *)
Definition spec_idempotent (MOCK : gmap string Order) (first retry : ThunkEnv)
    (oid : string) (s : Store) : Prop :=
  let once := final (updateOrderStatusAndGenerateLabel MOCK first oid SHIPPED s) in
  final (updateOrderStatusAndGenerateLabel MOCK retry oid SHIPPED once) = once.

(** OPEN → SHIPPED moves the shipment to "Order in Transit". *)
Definition spec_shipment_in_transit (MOCK : gmap string Order) (env : ThunkEnv)
    (oid : string) (s : Store) : Prop :=
  ∀ o shp, orders s !! oid = Some o → order_status o = OPEN →
    shipments s !! ("SHP-" +:+ oid) = Some shp →
    let r := updateOrderStatusAndGenerateLabel MOCK env oid SHIPPED s in
    ∃ shp' ev,
      shipments (final r) !! ("SHP-" +:+ oid) = Some shp'
      ∧ tracking shp' = (tracking shp ++ [ev])%list
      ∧ ev_status ev = "Order in Transit"
      ∧ shp_status shp' = OrderInTransit
      ∧ progress shp' = 60%Z.

(** The Label copies the carrier and tracking number of the order's
    shipment. *)
Definition spec_label_matches_shipment (MOCK : gmap string Order)
    (env : ThunkEnv) (oid : string) (s : Store) : Prop :=
  let r := updateOrderStatusAndGenerateLabel MOCK env oid SHIPPED s in
  ∀ shp l, shipments (final r) !! ("SHP-" +:+ oid) = Some shp →
    l ∈ labels_of oid (documents (final r)) →
    doc_carrier l = Some (carrier shp)
    ∧ trackingNumber l = Some (tracking_number shp).

(** SHIPPED → DELIVERED leaves the documents alone and closes the shipment. *)
Definition spec_delivered (MOCK : gmap string Order) (env : ThunkEnv)
    (oid : string) (s : Store) : Prop :=
  ∀ o shp, orders s !! oid = Some o → order_status o = SHIPPED →
    shipments s !! ("SHP-" +:+ oid) = Some shp →
    let r := updateOrderStatusAndGenerateLabel MOCK env oid DELIVERED s in
    documents (final r) = documents s
    ∧ (order_status <$> orders (final r) !! oid) = Some DELIVERED
    ∧ ∃ shp' ev,
        shipments (final r) !! ("SHP-" +:+ oid) = Some shp'
        ∧ tracking shp' = (tracking shp ++ [ev])%list
        ∧ ev_status ev = "Reached Destination"
        ∧ progress shp' = 100%Z.

(** An unknown order id makes the advance fail. *)
Definition spec_not_found (MOCK : gmap string Order) (env : ThunkEnv)
    (oid status : string) (s : Store) : Prop :=
  orders s !! oid = None →
  failed (updateOrderStatusAndGenerateLabel MOCK env oid status s).

(** Two runs on the same store state end in the same state. *)
Definition spec_advance_deterministic (MOCK : gmap string Order)
    (env1 env2 : ThunkEnv) (oid status : string) (s : Store) : Prop :=
  final (updateOrderStatusAndGenerateLabel MOCK env1 oid status s)
  = final (updateOrderStatusAndGenerateLabel MOCK env2 oid status s).

(** Two seedings of the same orders give the same shipments and documents. *)
Definition spec_seed_deterministic (env1 env2 : SeedEnv) : Prop :=
  MOCK_ORDERS env1 = MOCK_ORDERS env2 →
  ∀ s1 s2, initial_store env1 = Some s1 → initial_store env2 = Some s2 →
    shipments s1 = shipments s2 ∧ documents s1 = documents s2.

(** ** Auxiliary definitions for the proofs *)

(** Every Label document sits under the key the thunk and the seeding give
    it. *)
Definition labels_keyed (docs : gmap string Document) : Prop :=
  ∀ k d, docs !! k = Some d → doc_type d = Label → k = label_id (orderId d).

(** The states at rest: the loaded store, and what a run of the thunk that
    throws nowhere leaves behind when it sets an order of the store to a
    status other than OPEN. *)
Inductive settled (env : SeedEnv) : Store → Prop :=
  | settled_initial s :
      initial_store env = Some s → settled env s
  | settled_advance s call oid status :
      settled env s →
      is_Some (orders s !! oid) →
      status ≠ OPEN →
      succeeded (updateOrderStatusAndGenerateLabel (MOCK_ORDERS env) call oid status s) →
      settled env
        (final (updateOrderStatusAndGenerateLabel (MOCK_ORDERS env) call oid status s)).

(** The equivalence of the specification together with what keeps it stable
    under an upsert of a Label. *)
Definition consistent (s : Store) : Prop :=
  spec_label_invariant s ∧ labels_keyed (documents s).

(** The shipment loop with the [destination] expression already evaluated:
    it cannot throw, and agrees with [MOCK_SHIPMENTS] because every seeded
    address has at least two comma-separated parts. *)
Definition seed_destination (order : Order) : string :=
  default "" (destination_of (customer_address order)).

Definition seeded_shipment_step (env : SeedEnv) (st : nat * gmap string Shipment)
    (orderId : string) : nat * gmap string Shipment :=
  match MOCK_ORDERS env !! orderId with
  | Some order =>
      (S st.1,
       <["SHP-" +:+ orderId :=
           shipment_record orderId order (shipment_draw env st.1)
                           (seed_destination order)]> st.2)
  | None => st
  end.

Definition seeded_shipments (env : SeedEnv) : gmap string Shipment :=
  (foldl (seeded_shipment_step env) (0, ∅) (MOCK_ORDERS_keys env)).2.

(** The document loop with the shipment of every DELIVERED order found. *)
Definition seeded_document_step (env : SeedEnv) (shipments : gmap string Shipment)
    (docs : gmap string Document) (orderId : string) : gmap string Document :=
  match MOCK_ORDERS env !! orderId with
  | Some order =>
      let docs' := foldl (λ m type, add_document m (standard_document orderId order type))
                         docs docTypes in
      if String.eqb (order_status order) "DELIVERED" then
        match shipments !! ("SHP-" +:+ orderId) with
        | Some shipment => add_document docs' (seeded_label orderId order shipment)
        | None => docs'
        end
      else docs'
  | None => docs
  end.

Definition seeded_documents (env : SeedEnv) : gmap string Document :=
  foldl (seeded_document_step env (seeded_shipments env)) ∅ (MOCK_ORDERS_keys env).

Definition seeded_store (env : SeedEnv) : Store :=
  {| orders := MOCK_ORDERS env;
     shipments := seeded_shipments env;
     documents := seeded_documents env;
     localStorage_orders := None |}.

(** The store of the demo load. *)
Definition demo_store : Store := seeded_store demo_seed.

(** The demo store after order ORD340001 has been advanced to SHIPPED. *)
Definition demo_shipped : Store :=
  final (updateOrderStatusAndGenerateLabel demo_MOCK demo_call
           "ORD340001" "SHIPPED" demo_store).

(** Two seeding environments that agree on every reading the loops make. *)
Definition same_readings (env1 env2 : SeedEnv) : Prop :=
  load_iso env1 = load_iso env2
  ∧ (∀ i, (1 ≤ i ≤ 29)%nat → order_draw env1 i = order_draw env2 i)
  ∧ (∀ j, (j < 30)%nat → shipment_draw env1 j = shipment_draw env2 j).

(** Two calls that agree on every reading the thunk makes for [oid]: the
    draw is only read when the id is not ['ORD34001']. *)
Definition same_call (oid : string) (call1 call2 : ThunkEnv) : Prop :=
  clock_iso call1 = clock_iso call2
  ∧ label_dispatch_throws call1 = label_dispatch_throws call2
  ∧ setItem_throws call1 = setItem_throws call2
  ∧ (oid = "ORD34001" ∨ random_tracking call1 = random_tracking call2).

(** * Properties of the thunk *)

Section Thunk.

Variable MOCK : gmap string Order.

Local Abbreviation thunk := (updateOrderStatusAndGenerateLabel MOCK).

(** The state after each of the three statements of the [try] block. *)
Definition status_written (oid status : string) (s : Store) : Store :=
  write_orders (updateOrderStatus oid status) s.

Definition label_written (call : ThunkEnv) (oid status : string) (s : Store)
  : Store :=
  write_documents (addShippingLabel (thunk_label call oid))
                  (status_written oid status s).

Definition all_written (call : ThunkEnv) (oid status : string) (s : Store)
  : Store :=
  write_localStorage (updatedOrders MOCK oid status)
                     (label_written call oid status s).

Lemma thunk_completes call oid status s :
  label_dispatch_throws call = false →
  setItem_throws call = false →
  thunk call oid status s
  = mkRun (Returned true) (all_written call oid status s)
          [status_written oid status s; label_written call oid status s].
Proof.
  intros Hl Hs.
  unfold updateOrderStatusAndGenerateLabel, try_catch, bind,
    dispatch_updateOrderStatus, dispatch_addShippingLabel,
    localStorage_setItem_orders, ret.
  cbn. rewrite Hl. cbn. rewrite Hs. reflexivity.
Qed.

Lemma thunk_label_throws call oid status s :
  label_dispatch_throws call = true →
  thunk call oid status s
  = mkRun (Returned false) (status_written oid status s)
          [status_written oid status s].
Proof.
  intros Hl.
  unfold updateOrderStatusAndGenerateLabel, try_catch, bind,
    dispatch_updateOrderStatus, dispatch_addShippingLabel, ret.
  cbn. rewrite Hl. reflexivity.
Qed.

Lemma thunk_setItem_throws call oid status s :
  label_dispatch_throws call = false →
  setItem_throws call = true →
  thunk call oid status s
  = mkRun (Returned false) (label_written call oid status s)
          [status_written oid status s; label_written call oid status s].
Proof.
  intros Hl Hs.
  unfold updateOrderStatusAndGenerateLabel, try_catch, bind,
    dispatch_updateOrderStatus, dispatch_addShippingLabel,
    localStorage_setItem_orders, ret.
  cbn. rewrite Hl. cbn. rewrite Hs. reflexivity.
Qed.

(** The thunk always resolves: to [true] or to [false]. *)
Lemma thunk_resolves call oid status s :
  succeeded (thunk call oid status s) ∨ failed (thunk call oid status s).
Proof.
  destruct (label_dispatch_throws call) eqn:Hl.
  - right. by rewrite thunk_label_throws.
  - destruct (setItem_throws call) eqn:Hs.
    + right. by rewrite thunk_setItem_throws.
    + left. by rewrite thunk_completes.
Qed.

Lemma succeeded_no_throw call oid status s :
  succeeded (thunk call oid status s) →
  label_dispatch_throws call = false ∧ setItem_throws call = false.
Proof.
  unfold succeeded.
  destruct (label_dispatch_throws call) eqn:Hl.
  - by rewrite thunk_label_throws.
  - destruct (setItem_throws call) eqn:Hs; [|done].
    by rewrite thunk_setItem_throws.
Qed.

(** No path of the thunk writes a shipment. *)
Lemma thunk_shipments call oid status s :
  shipments (final (thunk call oid status s)) = shipments s.
Proof.
  destruct (label_dispatch_throws call) eqn:Hl.
  - by rewrite thunk_label_throws.
  - destruct (setItem_throws call) eqn:Hs.
    + by rewrite thunk_setItem_throws.
    + by rewrite thunk_completes.
Qed.

(** The status is written on every path, before anything can throw. *)
Lemma thunk_orders call oid status s :
  orders (final (thunk call oid status s))
  = updateOrderStatus oid status (orders s).
Proof.
  destruct (label_dispatch_throws call) eqn:Hl.
  - by rewrite thunk_label_throws.
  - destruct (setItem_throws call) eqn:Hs.
    + by rewrite thunk_setItem_throws.
    + by rewrite thunk_completes.
Qed.

Lemma updateOrderStatus_lookup oid status (os : gmap string Order) o :
  os !! oid = Some o →
  updateOrderStatus oid status os !! oid = Some (with_status status o).
Proof.
  intros H. unfold updateOrderStatus. rewrite H. apply lookup_insert_eq.
Qed.

Lemma updateOrderStatus_other oid oid' status (os : gmap string Order) :
  oid ≠ oid' →
  updateOrderStatus oid status os !! oid' = os !! oid'.
Proof.
  intros H. unfold updateOrderStatus.
  destruct (os !! oid); [|done]. by rewrite lookup_insert_ne.
Qed.

Lemma updateOrderStatus_absent oid status (os : gmap string Order) :
  os !! oid = None → updateOrderStatus oid status os = os.
Proof. intros H. unfold updateOrderStatus. by rewrite H. Qed.

End Thunk.

(** * The loaded demo store *)

(** Closes [a = b] by evaluating both sides, without writing the value into
    the proof. *)
Ltac by_evaluation :=
  unfold failed, succeeded;
  lazymatch goal with
  | |- ?a = ?b => vm_cast_no_check (@eq_refl _ b)
  end.


Lemma demo_open_order :
  orders demo_store !! "ORD340001" = Some (open_order demo_seed).
Proof. by_evaluation. Qed.

(** * Atomicity of the advance *)

(** A failed run never undoes the status write. *)
Lemma failed_run_keeps_status MOCK call oid status s o :
  orders s !! oid = Some o →
  failed (updateOrderStatusAndGenerateLabel MOCK call oid status s) →
  orders (final (updateOrderStatusAndGenerateLabel MOCK call oid status s)) !! oid
  = Some (with_status status o).
Proof.
  intros Ho _. rewrite thunk_orders. by apply updateOrderStatus_lookup.
Qed.

(** C1 (all-or-nothing commit), evaluated on the loaded store.  When the
    label dispatch throws while order ORD340001 is advanced from OPEN to
    SHIPPED, the thunk resolves to [false], yet the order is left SHIPPED with
    no Label; when [localStorage.setItem] throws, it resolves to [false] with
    both the status and the Label written.  Either run refutes the
    all-or-nothing statement. *)
Theorem C1_failed_advance_leaves_status_advanced :
  let r1 := updateOrderStatusAndGenerateLabel demo_MOCK demo_label_failure
              "ORD340001" SHIPPED demo_store in
  let r2 := updateOrderStatusAndGenerateLabel demo_MOCK demo_storage_failure
              "ORD340001" SHIPPED demo_store in
  (order_status <$> orders demo_store !! "ORD340001") = Some OPEN
  ∧ failed r1
  ∧ (order_status <$> orders (final r1) !! "ORD340001") = Some SHIPPED
  ∧ labels_of "ORD340001" (documents (final r1)) = []
  ∧ ¬ spec_atomic demo_MOCK demo_label_failure "ORD340001" SHIPPED demo_store
  ∧ failed r2
  ∧ (order_status <$> orders (final r2) !! "ORD340001") = Some SHIPPED
  ∧ length (labels_of "ORD340001" (documents (final r2))) = 1
  ∧ ¬ spec_atomic demo_MOCK demo_storage_failure "ORD340001" SHIPPED demo_store.
Proof.
  cbv zeta.
  split; [by_evaluation|].
  split; [by_evaluation|].
  split; [by_evaluation|].
  split; [by_evaluation|].
  split.
  { intros H. destruct H as [Ho _]; [by_evaluation|].
    apply (f_equal (λ m, order_status <$> m !! "ORD340001")) in Ho.
    vm_compute in Ho. discriminate. }
  split; [by_evaluation|].
  split; [by_evaluation|].
  split; [by_evaluation|].
  intros H. destruct H as [Ho _]; [by_evaluation|].
  apply (f_equal (λ m, order_status <$> m !! "ORD340001")) in Ho.
  vm_compute in Ho. discriminate.
Qed.

(** * Transition checks *)

(** The claim C3 fails on the loaded store: the open order ORD340001 is taken
    straight to DELIVERED, and the run does not fail. *)
Lemma C3_illegal_transition_accepted :
  ¬ spec_rejects_illegal demo_MOCK demo_call "ORD340001" DELIVERED demo_store.
Proof.
  intros H.
  destruct (H (open_order demo_seed)) as [Hf _].
  - apply demo_open_order.
  - reflexivity.
  - vm_compute in Hf. discriminate.
Qed.

(** C3, amended: the thunk checks no transition.  For every order of the
    store and every requested status, the immediate successor or not, a run
    in which nothing throws resolves to [true], leaves the order with the
    requested status, stores the Label under DOC-<id>-LABEL and leaves the
    shipments as they were. *)
Theorem C3_every_requested_status_is_written
    (MOCK : gmap string Order) (call : ThunkEnv) (oid next : string)
    (s : Store) (o : Order) :
  orders s !! oid = Some o →
  label_dispatch_throws call = false →
  setItem_throws call = false →
  let r := updateOrderStatusAndGenerateLabel MOCK call oid next s in
  succeeded r
  ∧ orders (final r) !! oid = Some (with_status next o)
  ∧ documents (final r) !! label_id oid = Some (thunk_label call oid)
  ∧ shipments (final r) = shipments s.
Proof.
  intros Ho Hl Hs r. subst r.
  rewrite thunk_completes by done. cbn.
  repeat split.
  - by apply updateOrderStatus_lookup.
  - unfold addShippingLabel. cbn. apply lookup_insert_eq.
Qed.

Lemma C3_every_requested_status_is_written_witness :
  let r := updateOrderStatusAndGenerateLabel demo_MOCK demo_call
             "ORD340001" DELIVERED demo_store in
  is_successor (order_status (open_order demo_seed)) DELIVERED = false
  ∧ succeeded r
  ∧ orders (final r) !! "ORD340001"
    = Some (with_status DELIVERED (open_order demo_seed))
  ∧ documents (final r) !! label_id "ORD340001"
    = Some (thunk_label demo_call "ORD340001")
  ∧ shipments (final r) = shipments demo_store.
Proof.
  split; [reflexivity|].
  apply (C3_every_requested_status_is_written demo_MOCK demo_call
           "ORD340001" DELIVERED demo_store (open_order demo_seed)).
  - by_evaluation.
  - reflexivity.
  - reflexivity.
Defined.

(** * The shipment during an advance *)

(** The claim C5 fails on the loaded store: after the advance of ORD340001 to
    SHIPPED its shipment still has its two seeded tracking events. *)
Lemma C5_shipment_not_updated :
  ¬ spec_shipment_in_transit demo_MOCK demo_call "ORD340001" demo_store.
Proof.
  intros H.
  destruct (H (open_order demo_seed)
              (shipment_record "ORD340001" (open_order demo_seed)
                 (shipment_draw demo_seed 0) "NY 10001"))
    as (shp' & ev & Hshp & Htr & _).
  - apply demo_open_order.
  - reflexivity.
  - by_evaluation.
  - rewrite thunk_shipments in Hshp.
    vm_compute in Hshp. injection Hshp as <-.
    apply (f_equal length) in Htr. rewrite length_app in Htr.
    cbn in Htr. lia.
Qed.

(** C5, amended: an advance leaves every shipment as it was, in the final
    state and in every state published on the way, whether the run succeeds
    or fails; no tracking event is appended and status, progress and
    lastUpdate keep their seeded values. *)
Theorem C5_advance_leaves_shipments_unchanged
    (MOCK : gmap string Order) (call : ThunkEnv) (oid status : string)
    (s : Store) :
  let r := updateOrderStatusAndGenerateLabel MOCK call oid status s in
  shipments (final r) = shipments s
  ∧ ∀ s', s' ∈ published r → shipments s' = shipments s.
Proof.
  cbv zeta. split; [apply thunk_shipments|].
  intros s'.
  destruct (label_dispatch_throws call) eqn:Hl.
  - rewrite thunk_label_throws by done. cbn. rewrite list_elem_of_singleton.
    by intros ->.
  - destruct (setItem_throws call) eqn:Hs.
    + rewrite thunk_setItem_throws by done. cbn.
      rewrite !elem_of_cons, elem_of_nil. by intros [->|[->|[]]].
    + rewrite thunk_completes by done. cbn.
      rewrite !elem_of_cons, elem_of_nil. by intros [->|[->|[]]].
Qed.

(** * Carrier and tracking number of the Label *)

(** C6 (the Label carries the shipment's carrier and tracking number),
    evaluated on the loaded store.  The shipment of ORD340001 was seeded with
    carrier UPS and tracking number TRK482913; the Label the thunk creates
    says FedEx and TRK555555, the thunk's own draw, and the shipment is not
    touched. *)
Theorem C6_label_does_not_copy_shipment :
  let r := updateOrderStatusAndGenerateLabel demo_MOCK demo_call
             "ORD340001" SHIPPED demo_store in
  succeeded r
  ∧ (carrier <$> shipments (final r) !! "SHP-ORD340001") = Some "UPS"
  ∧ (tracking_number <$> shipments (final r) !! "SHP-ORD340001") = Some "TRK482913"
  ∧ ((λ l, (doc_carrier l, trackingNumber l)) <$> labels_of "ORD340001" (documents (final r)))
    = [(Some "FedEx", Some "TRK555555")]
  ∧ ¬ spec_label_matches_shipment demo_MOCK demo_call "ORD340001" demo_store.
Proof.
  cbv zeta.
  split; [by_evaluation|].
  split; [by_evaluation|].
  split; [by_evaluation|].
  split; [by_evaluation|].
  intros H.
  destruct (H (shipment_record "ORD340001" (open_order demo_seed)
                 (shipment_draw demo_seed 0) "NY 10001")
              (thunk_label demo_call "ORD340001")) as [Hc _].
  - by_evaluation.
  - vm_compute. apply list_elem_of_here.
  - vm_compute in Hc. discriminate.
Qed.

(** * Unknown order ids *)

(** The claim C9 fails on the loaded store: ORD999999 is no order of the
    store, and the advance does not fail. *)
Lemma C9_unknown_order_succeeds :
  ¬ spec_not_found demo_MOCK demo_call "ORD999999" SHIPPED demo_store.
Proof.
  intros H. unfold spec_not_found, failed in H.
  assert (Hf := H ltac:(by_evaluation)).
  vm_compute in Hf. discriminate.
Qed.

(** C9, amended: for an order id that is not in the store the reducer's guard
    skips the status write silently.  A run in which nothing throws resolves
    to [true], leaves orders and shipments as they were, and still stores a
    Label document for the unknown id; when the id is no key of [MOCK_ORDERS]
    either, the persisted object gets an entry holding only the status. *)
Theorem C9_unknown_order_is_skipped_silently
    (MOCK : gmap string Order) (call : ThunkEnv) (oid status : string)
    (s : Store) :
  orders s !! oid = None →
  label_dispatch_throws call = false →
  setItem_throws call = false →
  let r := updateOrderStatusAndGenerateLabel MOCK call oid status s in
  succeeded r
  ∧ orders (final r) = orders s
  ∧ shipments (final r) = shipments s
  ∧ documents (final r) = <[label_id oid := thunk_label call oid]> (documents s)
  ∧ (MOCK !! oid = None →
     localStorage_orders (final r) ≫= (λ m, m !! oid) = Some (StatusOnly status)).
Proof.
  intros Ho Hl Hs r. subst r.
  rewrite thunk_completes by done. cbn.
  repeat split.
  - by apply updateOrderStatus_absent.
  - intros HM. unfold updatedOrders. rewrite HM. apply lookup_insert_eq.
Qed.

Lemma C9_unknown_order_is_skipped_silently_witness :
  let r := updateOrderStatusAndGenerateLabel demo_MOCK demo_call
             "ORD999999" SHIPPED demo_store in
  orders demo_store !! "ORD999999" = None
  ∧ succeeded r
  ∧ orders (final r) = orders demo_store
  ∧ shipments (final r) = shipments demo_store
  ∧ documents (final r)
    = <[label_id "ORD999999" := thunk_label demo_call "ORD999999"]> (documents demo_store)
  ∧ (demo_MOCK !! "ORD999999" = None →
     localStorage_orders (final r) ≫= (λ m, m !! "ORD999999")
     = Some (StatusOnly SHIPPED)).
Proof.
  split; [by_evaluation|].
  apply (C9_unknown_order_is_skipped_silently demo_MOCK demo_call
           "ORD999999" SHIPPED demo_store).
  - by_evaluation.
  - reflexivity.
  - reflexivity.
Defined.

(** * Retrying an advance *)

Lemma with_status_twice status o :
  with_status status (with_status status o) = with_status status o.
Proof. reflexivity. Qed.

Lemma updateOrderStatus_twice oid status (os : gmap string Order) :
  updateOrderStatus oid status (updateOrderStatus oid status os)
  = updateOrderStatus oid status os.
Proof.
  unfold updateOrderStatus at 2 3.
  destruct (os !! oid) as [o|] eqn:Ho.
  - unfold updateOrderStatus. rewrite lookup_insert_eq.
    rewrite with_status_twice. apply insert_insert_eq.
  - unfold updateOrderStatus. by rewrite Ho.
Qed.

Lemma thunk_label_same_call oid call1 call2 :
  same_call oid call1 call2 → thunk_label call1 oid = thunk_label call2 oid.
Proof.
  intros (Hc & _ & _ & Hd). unfold thunk_label, thunk_shipment.
  rewrite Hc. destruct Hd as [->|Hd]; [reflexivity|]. by rewrite Hd.
Qed.

Lemma documents_of_insert oid k (d : Document) (docs : gmap string Document) :
  documents_of oid (<[k := d]> docs)
  ≡ₚ (if decide (orderId d = oid) then [d] else [])
     ++ documents_of oid (delete k docs).
Proof.
  unfold documents_of.
  rewrite <- insert_delete_eq.
  rewrite map_to_list_insert by apply lookup_delete_eq.
  rewrite fmap_cons. cbn [snd].
  rewrite filter_cons. by destruct (decide (orderId d = oid)).
Qed.

Lemma labels_of_insert_label oid k (l : Document) (docs : gmap string Document) :
  orderId l = oid → doc_type l = Label →
  labels_of oid (<[k := l]> docs) ≡ₚ l :: labels_of oid (delete k docs).
Proof.
  intros Ho Ht. unfold labels_of.
  rewrite documents_of_insert. rewrite decide_True by done.
  cbn [app]. rewrite filter_cons. by rewrite decide_True.
Qed.

Lemma labels_of_insert_other oid k (d : Document) (docs : gmap string Document) :
  orderId d ≠ oid →
  labels_of oid (<[k := d]> docs) ≡ₚ labels_of oid (delete k docs).
Proof.
  intros Ho. unfold labels_of.
  rewrite documents_of_insert. by rewrite decide_False.
Qed.

(** The claim C4 fails on the loaded store: the retry of the advance of
    ORD340001 draws a new tracking number and reads a later clock, and the
    Label of the first call is overwritten with them. *)
Lemma C4_retry_changes_label :
  ¬ spec_idempotent demo_MOCK demo_call demo_retry "ORD340001" demo_store.
Proof.
  unfold spec_idempotent. intros H.
  apply (f_equal (λ s, trackingNumber <$> documents s !! "DOC-ORD340001-LABEL")) in H.
  vm_compute in H. discriminate.
Qed.

(** C4, amended: a retry of the advance to SHIPPED in which nothing throws
    leaves the orders (the status is still SHIPPED), the shipments and the
    persisted orders exactly as the first call left them, adds no document id
    and no second Label for the order, and overwrites the one Label with the
    Label of the retry, whose date and (unless the id is ['ORD34001'])
    tracking number are read anew; the state after the retry is the state a
    single call with the retry's readings gives, and it equals the state after
    the first call when both calls read the same clock and draw. *)
Theorem C4_retry_overwrites_single_label
    (MOCK : gmap string Order) (first retry : ThunkEnv) (oid : string)
    (s : Store) :
  label_dispatch_throws first = false → setItem_throws first = false →
  label_dispatch_throws retry = false → setItem_throws retry = false →
  let once := final (updateOrderStatusAndGenerateLabel MOCK first oid SHIPPED s) in
  let twice := final (updateOrderStatusAndGenerateLabel MOCK retry oid SHIPPED once) in
  orders twice = orders once
  ∧ (∀ o, orders s !! oid = Some o → order_status <$> orders twice !! oid = Some SHIPPED)
  ∧ shipments twice = shipments once
  ∧ localStorage_orders twice = localStorage_orders once
  ∧ dom (documents twice) = dom (documents once)
  ∧ documents twice = <[label_id oid := thunk_label retry oid]> (documents once)
  ∧ length (labels_of oid (documents twice)) = length (labels_of oid (documents once))
  ∧ twice = final (updateOrderStatusAndGenerateLabel MOCK retry oid SHIPPED s)
  ∧ (same_call oid first retry → twice = once).
Proof.
  intros Hl1 Hs1 Hl2 Hs2 once twice. subst once twice.
  rewrite !thunk_completes by done.
  unfold all_written, label_written, status_written, write_localStorage,
    write_documents, write_orders, addShippingLabel. cbn.
  assert (Hdocs : <[label_id oid := thunk_label retry oid]>
                    (<[label_id oid := thunk_label first oid]> (documents s))
                  = <[label_id oid := thunk_label retry oid]> (documents s))
    by apply insert_insert_eq.
  repeat split.
  - apply updateOrderStatus_twice.
  - intros o Ho. rewrite updateOrderStatus_twice.
    by rewrite (updateOrderStatus_lookup _ _ _ o).
  - rewrite !dom_insert_L. set_solver.
  - rewrite !labels_of_insert_label by done.
    cbn. by rewrite !delete_insert_eq.
  - rewrite updateOrderStatus_twice. by rewrite Hdocs.
  - intros Hsame. rewrite updateOrderStatus_twice.
    rewrite <- (thunk_label_same_call oid first retry Hsame).
    by rewrite insert_insert_eq.
Qed.

Lemma C4_retry_overwrites_single_label_witness :
  let once := final (updateOrderStatusAndGenerateLabel demo_MOCK demo_call
                       "ORD340001" SHIPPED demo_store) in
  let twice := final (updateOrderStatusAndGenerateLabel demo_MOCK demo_retry
                        "ORD340001" SHIPPED once) in
  orders twice = orders once
  ∧ (∀ o, orders demo_store !! "ORD340001" = Some o →
       order_status <$> orders twice !! "ORD340001" = Some SHIPPED)
  ∧ shipments twice = shipments once
  ∧ localStorage_orders twice = localStorage_orders once
  ∧ dom (documents twice) = dom (documents once)
  ∧ documents twice
    = <[label_id "ORD340001" := thunk_label demo_retry "ORD340001"]> (documents once)
  ∧ length (labels_of "ORD340001" (documents twice))
    = length (labels_of "ORD340001" (documents once))
  ∧ twice = final (updateOrderStatusAndGenerateLabel demo_MOCK demo_retry
                     "ORD340001" SHIPPED demo_store)
  ∧ (same_call "ORD340001" demo_call demo_retry → twice = once).
Proof.
  apply (C4_retry_overwrites_single_label demo_MOCK demo_call demo_retry
           "ORD340001" demo_store).
  - reflexivity.
  - reflexivity.
  - reflexivity.
  - reflexivity.
Defined.

(** * The advance to DELIVERED *)

Lemma demo_shipped_order :
  orders demo_shipped !! "ORD340001"
  = Some (with_status SHIPPED (open_order demo_seed)).
Proof. by_evaluation. Qed.

Lemma demo_shipped_shipment :
  shipments demo_shipped !! ("SHP-" +:+ "ORD340001")
  = Some (shipment_record "ORD340001" (open_order demo_seed)
            (shipment_draw demo_seed 0) "NY 10001").
Proof. by_evaluation. Qed.

(** The claim C8 fails on the loaded store: after ORD340001 has been advanced
    to SHIPPED and then to DELIVERED, its shipment still shows progress 20 and
    the two seeded tracking events. *)
Lemma C8_delivered_shipment_not_closed :
  ¬ spec_delivered demo_MOCK demo_retry "ORD340001" demo_shipped.
Proof.
  intros H.
  destruct (H _ _ demo_shipped_order eq_refl demo_shipped_shipment)
    as (_ & _ & shp' & ev & Hshp & _ & _ & Hp).
  rewrite thunk_shipments, demo_shipped_shipment in Hshp.
  injection Hshp as <-. vm_compute in Hp. discriminate.
Qed.

(** C8, amended: when an order whose Label is already stored under
    DOC-<id>-LABEL is advanced to DELIVERED and nothing throws, the status
    becomes DELIVERED, no document id is added (the number of documents is
    what it was after the SHIPPED step) and every document but the Label is
    unchanged, while the Label itself is written again from the readings of
    this call; the shipments are left as they were, so no "Reached
    Destination" event is appended and progress and lastUpdate keep their
    values. *)
Theorem C8_delivered_rewrites_label_only
    (MOCK : gmap string Order) (call : ThunkEnv) (oid : string) (s : Store)
    (o : Order) (l : Document) :
  orders s !! oid = Some o →
  documents s !! label_id oid = Some l →
  label_dispatch_throws call = false →
  setItem_throws call = false →
  let r := updateOrderStatusAndGenerateLabel MOCK call oid DELIVERED s in
  succeeded r
  ∧ order_status <$> orders (final r) !! oid = Some DELIVERED
  ∧ dom (documents (final r)) = dom (documents s)
  ∧ size (documents (final r)) = size (documents s)
  ∧ (∀ k, k ≠ label_id oid → documents (final r) !! k = documents s !! k)
  ∧ documents (final r) !! label_id oid = Some (thunk_label call oid)
  ∧ shipments (final r) = shipments s.
Proof.
  intros Ho Hlab Hl Hs r. subst r.
  rewrite thunk_completes by done.
  unfold all_written, label_written, status_written, write_localStorage,
    write_documents, write_orders, addShippingLabel, succeeded. cbn.
  assert (Hdom : dom (<[label_id oid := thunk_label call oid]> (documents s))
                 = dom (documents s)).
  { rewrite dom_insert_L.
    assert (label_id oid ∈ dom (documents s)) by (apply elem_of_dom; eauto).
    set_solver. }
  repeat split.
  - by rewrite (updateOrderStatus_lookup _ _ _ o).
  - exact Hdom.
  - by rewrite <- !size_dom, Hdom.
  - intros k Hk. by rewrite lookup_insert_ne.
  - apply lookup_insert_eq.
Qed.

Lemma C8_delivered_rewrites_label_only_witness :
  let r := updateOrderStatusAndGenerateLabel demo_MOCK demo_retry
             "ORD340001" DELIVERED demo_shipped in
  succeeded r
  ∧ order_status <$> orders (final r) !! "ORD340001" = Some DELIVERED
  ∧ dom (documents (final r)) = dom (documents demo_shipped)
  ∧ size (documents (final r)) = size (documents demo_shipped)
  ∧ (∀ k, k ≠ label_id "ORD340001" →
       documents (final r) !! k = documents demo_shipped !! k)
  ∧ documents (final r) !! label_id "ORD340001"
    = Some (thunk_label demo_retry "ORD340001")
  ∧ shipments (final r) = shipments demo_shipped.
Proof.
  apply (C8_delivered_rewrites_label_only demo_MOCK demo_retry "ORD340001"
           demo_shipped (with_status SHIPPED (open_order demo_seed))
           (thunk_label demo_call "ORD340001")).
  - vm_compute. reflexivity.
  - vm_compute. reflexivity.
  - reflexivity.
  - reflexivity.
Defined.

(** * The seeding loops *)

Lemma foldl_assign_lookup {V} (l : list (string * V)) (m : gmap string V) k v :
  foldl assign m l !! k = Some v → (k, v) ∈ l ∨ m !! k = Some v.
Proof.
  revert m. induction l as [|[k' v'] l IH]; intros m; cbn.
  - by right.
  - intros H. destruct (IH _ H) as [Hin|Hm].
    + left. by apply list_elem_of_further.
    + unfold assign in Hm. cbn in Hm.
      destruct (decide (k' = k)) as [->|Hne].
      * rewrite lookup_insert_eq in Hm. injection Hm as ->.
        left. apply list_elem_of_here.
      * rewrite lookup_insert_ne in Hm by done. by right.
Qed.

Lemma foldl_assign_is_Some {V} (l : list (string * V)) (m : gmap string V) k :
  k ∈ l.*1 ∨ is_Some (m !! k) → is_Some (foldl assign m l !! k).
Proof.
  revert m. induction l as [|[k' v'] l IH]; intros m; cbn.
  - intros [H|H]; [by apply elem_of_nil in H|done].
  - intros [H|H]; apply IH.
    + apply elem_of_cons in H as [->|H]; [right|by left].
      unfold assign. cbn. rewrite lookup_insert_eq. eauto.
    + right. unfold assign. cbn.
      destruct (decide (k' = k)) as [->|Hne].
      * rewrite lookup_insert_eq. eauto.
      * by rewrite lookup_insert_ne.
Qed.

Lemma forEach_throwing_thrown {A S} (f : S → A → option S) (l : list A) :
  foldl (λ acc x, acc ≫= λ s', f s' x) None l = None.
Proof. induction l; [done|]. cbn. apply IHl. Qed.

Lemma forEach_throwing_cons {A S} (f : S → A → option S) x (l : list A) s :
  forEach_throwing f (x :: l) s
  = match f s x with
    | Some s' => forEach_throwing f l s'
    | None => None
    end.
Proof.
  unfold forEach_throwing. cbn.
  destruct (f s x); [done|]. apply forEach_throwing_thrown.
Qed.

(** A loop whose callback never throws on the elements it visits is a plain
    fold. *)
Lemma forEach_throwing_pure {A S} (f : S → A → option S) (g : S → A → S)
    (l : list A) (s : S) :
  (∀ s' x, x ∈ l → f s' x = Some (g s' x)) →
  forEach_throwing f l s = Some (foldl g s l).
Proof.
  revert s. induction l as [|x l IH]; intros s H; [done|].
  rewrite forEach_throwing_cons, H by apply list_elem_of_here.
  cbn. apply IH. intros s' y Hy. apply H. by apply list_elem_of_further.
Qed.

Lemma MOCK_ORDERS_entries_inv env k o :
  (k, o) ∈ MOCK_ORDERS_entries env →
  (k = "ORD340001" ∧ o = open_order env)
  ∨ ∃ i, (1 ≤ i ≤ 29)%nat ∧ o = past_order env i ∧ k = order_id o.
Proof.
  unfold MOCK_ORDERS_entries. intros H.
  apply elem_of_cons in H as [H|H].
  - left. by injection H as -> ->.
  - right. apply list_elem_of_In, in_map_iff in H as (i & Hi & Hin).
    apply in_seq in Hin. exists i. cbn in Hi. injection Hi as <- <-.
    split; [lia|done].
Qed.

Lemma MOCK_ORDERS_lookup_inv env k o :
  MOCK_ORDERS env !! k = Some o →
  (k = "ORD340001" ∧ o = open_order env)
  ∨ ∃ i, (1 ≤ i ≤ 29)%nat ∧ o = past_order env i ∧ k = order_id o.
Proof.
  intros H. apply foldl_assign_lookup in H as [H|H].
  - by apply MOCK_ORDERS_entries_inv.
  - by rewrite lookup_empty in H.
Qed.

(** The only order the seeding creates with status OPEN is ORD340001. *)
Lemma seeded_open_order env k o :
  MOCK_ORDERS env !! k = Some o → order_status o = OPEN →
  k = "ORD340001" ∧ o = open_order env.
Proof.
  intros H Hs. apply MOCK_ORDERS_lookup_inv in H as [H|(i & _ & -> & _)]; [done|].
  discriminate Hs.
Qed.

Lemma MOCK_ORDERS_key_lookup env k :
  k ∈ MOCK_ORDERS_keys env → is_Some (MOCK_ORDERS env !! k).
Proof. intros H. apply foldl_assign_is_Some. by left. Qed.

(** Every seeded address has a second-to-last part. *)
Lemma destination_of_seeded env k o :
  MOCK_ORDERS env !! k = Some o →
  destination_of (customer_address o) = Some (seed_destination o).
Proof.
  intros H. unfold seed_destination.
  apply MOCK_ORDERS_lookup_inv in H as [[_ ->]|(i & _ & -> & _)].
  - reflexivity.
  - cbn. by destruct (destination_draw (order_draw env i)).
Qed.

Lemma shipment_step_seeded env st k :
  k ∈ MOCK_ORDERS_keys env →
  shipment_step env st k = Some (seeded_shipment_step env st k).
Proof.
  intros Hk. unfold shipment_step, seeded_shipment_step.
  destruct (MOCK_ORDERS_key_lookup env k Hk) as [o Ho].
  rewrite Ho. cbn. unfold seedShipment.
  by rewrite (destination_of_seeded env k o Ho).
Qed.

(** The shipment loop does not throw. *)
Lemma MOCK_SHIPMENTS_seeded env :
  MOCK_SHIPMENTS env = Some (seeded_shipments env).
Proof.
  unfold MOCK_SHIPMENTS, seeded_shipments.
  rewrite (forEach_throwing_pure _ (seeded_shipment_step env)); [done|].
  intros st k Hk. by apply shipment_step_seeded.
Qed.

Lemma seeded_shipment_fold_lookup env (l : list string) st k :
  (∀ x, x ∈ l → is_Some (MOCK_ORDERS env !! x)) →
  k ∈ l ∨ is_Some (st.2 !! ("SHP-" +:+ k)) →
  is_Some ((foldl (seeded_shipment_step env) st l).2 !! ("SHP-" +:+ k)).
Proof.
  revert st. induction l as [|x l IH]; intros st Hl Hk.
  - destruct Hk as [Hk|Hk]; [by apply elem_of_nil in Hk|done].
  - cbn [foldl]. apply IH.
    { intros y Hy. apply Hl. by apply list_elem_of_further. }
    destruct (Hl x (list_elem_of_here _ _)) as [o Ho].
    unfold seeded_shipment_step. rewrite Ho. cbn [snd].
    destruct Hk as [Hk|Hk].
    + apply elem_of_cons in Hk as [->|Hk]; [right|by left].
      rewrite lookup_insert_eq. eauto.
    + right. apply lookup_insert_is_Some'. by right.
Qed.

(** Every order has its shipment when the document loop starts. *)
Lemma seeded_shipments_lookup env k :
  k ∈ MOCK_ORDERS_keys env →
  is_Some (seeded_shipments env !! ("SHP-" +:+ k)).
Proof.
  intros Hk. apply seeded_shipment_fold_lookup; [|by left].
  apply MOCK_ORDERS_key_lookup.
Qed.

Lemma document_step_seeded env docs k :
  k ∈ MOCK_ORDERS_keys env →
  document_step env (seeded_shipments env) docs k
  = Some (seeded_document_step env (seeded_shipments env) docs k).
Proof.
  intros Hk. unfold document_step, seeded_document_step.
  destruct (MOCK_ORDERS_key_lookup env k Hk) as [o ->].
  destruct (seeded_shipments_lookup env k Hk) as [shp ->].
  cbn [mbind option_bind].
  by destruct (String.eqb (order_status o) "DELIVERED").
Qed.

(** So the document loop does not throw either. *)
Lemma MOCK_DOCUMENTS_seeded env :
  MOCK_DOCUMENTS env (seeded_shipments env) = Some (seeded_documents env).
Proof.
  unfold MOCK_DOCUMENTS, seeded_documents.
  apply forEach_throwing_pure.
  intros docs k Hk. by apply document_step_seeded.
Qed.


Lemma initial_store_seeded env : initial_store env = Some (seeded_store env).
Proof.
  unfold initial_store.
  apply bind_Some. exists (seeded_shipments env).
  split; [apply MOCK_SHIPMENTS_seeded|].
  apply bind_Some. exists (seeded_documents env).
  split; [apply MOCK_DOCUMENTS_seeded|reflexivity].
Qed.

Lemma demo_store_loaded : initial_store demo_seed = Some demo_store.
Proof. apply initial_store_seeded. Qed.

(** * The seeded open order *)

Lemma seeded_open_documents env :
  documents_of "ORD340001" (seeded_documents env)
  = [ standard_document "ORD340001" (open_order env) CertificateOfOrigin;
      standard_document "ORD340001" (open_order env) Invoice;
      standard_document "ORD340001" (open_order env) PackingList ].
Proof. by_evaluation. Qed.

Lemma seeded_open_shipment env :
  shipments_of "ORD340001" (seeded_shipments env)
  = [ shipment_record "ORD340001" (open_order env) (shipment_draw env 0)
        "NY 10001" ].
Proof. by_evaluation. Qed.

(** The shipment loop selects "Order Received" and progress 20 by the id
    ORD340001, not by the status: under any other id an order that is not
    DELIVERED would be seeded as in transit.  The seeding creates no such
    order. *)
Lemma seed_status_keyed_on_id oid o :
  oid ≠ "ORD340001" → order_status o ≠ DELIVERED →
  seed_status oid o = OrderInTransit ∧ seed_progress oid o = 60%Z.
Proof.
  intros Hid Hst. unfold seed_status, seed_progress.
  apply String.eqb_neq in Hid. apply String.eqb_neq in Hst.
  unfold DELIVERED in Hst. by rewrite Hid, Hst.
Qed.

(** C7: whatever the seeding loops draw, they do not throw, and for every
    order of the seeded [MOCK_ORDERS] whose status is OPEN the loaded store
    holds exactly three documents (Invoice, Packing List, Certificate of
    Origin, each Final and dated at the placement of the order), no Label,
    and exactly one shipment, with status "Order Received", progress 20 and
    two tracking events. *)
Theorem C7_seeded_open_order (env : SeedEnv) (oid : string) (o : Order) :
  MOCK_ORDERS env !! oid = Some o →
  order_status o = OPEN →
  ∃ s shp,
    initial_store env = Some s
    ∧ documents_of oid (documents s)
      ≡ₚ [ standard_document oid o Invoice;
           standard_document oid o PackingList;
           standard_document oid o CertificateOfOrigin ]
    ∧ length (documents_of oid (documents s)) = 3
    ∧ doc_type <$> documents_of oid (documents s)
      ≡ₚ [Invoice; PackingList; CertificateOfOrigin]
    ∧ (∀ d, d ∈ documents_of oid (documents s) →
         doc_status d = Final ∧ date d = order_placed_timestamp o)
    ∧ labels_of oid (documents s) = []
    ∧ shipments_of oid (shipments s) = [shp]
    ∧ shp_status shp = OrderReceived
    ∧ progress shp = 20%Z
    ∧ length (tracking shp) = 2.
Proof.
  intros Ho Hs. destruct (seeded_open_order env oid o Ho Hs) as [-> ->].
  exists (seeded_store env),
    (shipment_record "ORD340001" (open_order env) (shipment_draw env 0) "NY 10001").
  split; [apply initial_store_seeded|].
  unfold labels_of. cbn [documents shipments seeded_store].
  rewrite seeded_open_documents, seeded_open_shipment.
  split.
  { rewrite (Permutation_swap _ _ [_]). apply Permutation_skip, Permutation_swap. }
  split; [reflexivity|].
  split.
  { cbn. rewrite (Permutation_swap _ _ [_]). apply Permutation_skip, Permutation_swap. }
  split.
  { intros d Hd. rewrite !elem_of_cons, elem_of_nil in Hd.
    destruct Hd as [->|[->|[->|[]]]]; by split. }
  repeat split.
Qed.

Lemma C7_seeded_open_order_witness :
  MOCK_ORDERS demo_seed !! "ORD340001" = Some (open_order demo_seed)
  ∧ order_status (open_order demo_seed) = OPEN
  ∧ ∃ s shp,
      initial_store demo_seed = Some s
      ∧ documents_of "ORD340001" (documents s)
        ≡ₚ [ standard_document "ORD340001" (open_order demo_seed) Invoice;
             standard_document "ORD340001" (open_order demo_seed) PackingList;
             standard_document "ORD340001" (open_order demo_seed) CertificateOfOrigin ]
      ∧ length (documents_of "ORD340001" (documents s)) = 3
      ∧ doc_type <$> documents_of "ORD340001" (documents s)
        ≡ₚ [Invoice; PackingList; CertificateOfOrigin]
      ∧ (∀ d, d ∈ documents_of "ORD340001" (documents s) →
           doc_status d = Final
           ∧ date d = order_placed_timestamp (open_order demo_seed))
      ∧ labels_of "ORD340001" (documents s) = []
      ∧ shipments_of "ORD340001" (shipments s) = [shp]
      ∧ shp_status shp = OrderReceived
      ∧ progress shp = 20%Z
      ∧ length (tracking shp) = 2.
Proof.
  split; [vm_compute; reflexivity|].
  split; [reflexivity|].
  apply (C7_seeded_open_order demo_seed "ORD340001" (open_order demo_seed)).
  - vm_compute. reflexivity.
  - reflexivity.
Defined.

(** * Label documents and order status *)

Ltac by_decision := apply (bool_decide_unpack _); vm_cast_no_check I.

Lemma string_length_app (s t : string) :
  String.length (s +:+ t) = String.length s + String.length t.
Proof. induction s as [|c s IH]; [done|]. simpl. f_equal. exact IH. Qed.

Lemma string_app_inj_r (s1 s2 t : string) : s1 +:+ t = s2 +:+ t → s1 = s2.
Proof.
  revert s2. induction s1 as [|c1 s1 IH]; intros [|c2 s2] H.
  - done.
  - apply (f_equal String.length) in H.
    rewrite !string_length_app in H. simpl in H. lia.
  - apply (f_equal String.length) in H.
    rewrite !string_length_app in H. simpl in H. lia.
  - simpl in H. injection H as -> H. f_equal. by apply IH.
Qed.

Lemma label_id_inj oid1 oid2 : label_id oid1 = label_id oid2 → oid1 = oid2.
Proof.
  unfold label_id. intros H.
  apply (String.app_inj "DOC-") in H. by apply string_app_inj_r in H.
Qed.

Lemma hasLabelDocument_true oid (docs : gmap string Document) :
  hasLabelDocument oid docs = true
  ↔ ∃ k d, docs !! k = Some d ∧ orderId d = oid ∧ doc_type d = Label.
Proof.
  unfold hasLabelDocument. rewrite bool_decide_eq_true.
  unfold labels_of, documents_of. split.
  - intros H.
    destruct (filter _ _) as [|d l] eqn:E; [done|].
    assert (Hd : d ∈ d :: l) by apply list_elem_of_here.
    rewrite <- E in Hd.
    apply list_elem_of_filter in Hd as [Ht Hd].
    apply list_elem_of_filter in Hd as [Ho Hd].
    apply list_elem_of_fmap in Hd as ([k d'] & -> & Hd).
    apply elem_of_map_to_list in Hd. by exists k, d'.
  - intros (k & d & Hk & Ho & Ht) E.
    assert (Hd : d ∈ filter (λ d, doc_type d = Label)
                   (filter (λ d, orderId d = oid) (map_to_list docs).*2)).
    { apply list_elem_of_filter. split; [done|].
      apply list_elem_of_filter. split; [done|].
      apply list_elem_of_fmap. exists (k, d). split; [done|].
      by apply elem_of_map_to_list. }
    rewrite E in Hd. by apply elem_of_nil in Hd.
Qed.

Lemma hasLabelDocument_ext oid (docs docs' : gmap string Document) :
  ((∃ k d, docs !! k = Some d ∧ orderId d = oid ∧ doc_type d = Label)
   ↔ (∃ k d, docs' !! k = Some d ∧ orderId d = oid ∧ doc_type d = Label)) →
  hasLabelDocument oid docs = hasLabelDocument oid docs'.
Proof.
  intros H. rewrite <- !hasLabelDocument_true in H.
  destruct (hasLabelDocument oid docs), (hasLabelDocument oid docs');
    try done; destruct H as [H1 H2]; [by rewrite H1|by rewrite H2].
Qed.

Lemma thunk_label_fields call oid :
  orderId (thunk_label call oid) = oid
  ∧ doc_type (thunk_label call oid) = Label
  ∧ doc_id (thunk_label call oid) = label_id oid.
Proof. done. Qed.

(** Upserting the Label of [oid] does not change whether another order has a
    Label. *)
Lemma hasLabelDocument_other call oid oid' (docs : gmap string Document) :
  labels_keyed docs → oid ≠ oid' →
  hasLabelDocument oid' (addShippingLabel (thunk_label call oid) docs)
  = hasLabelDocument oid' docs.
Proof.
  intros Hkeyed Hne. apply hasLabelDocument_ext. unfold addShippingLabel.
  cbn [doc_id thunk_label]. split.
  - intros (k & d & Hk & Ho & Ht).
    destruct (decide (label_id oid = k)) as [<-|Hk'].
    + rewrite lookup_insert_eq in Hk. injection Hk as <-. by cbn in Ho.
    + rewrite lookup_insert_ne in Hk by done. by exists k, d.
  - intros (k & d & Hk & Ho & Ht). exists k, d.
    rewrite lookup_insert_ne; [done|].
    intros Heq. rewrite (Hkeyed k d Hk Ht), Ho in Heq.
    by apply label_id_inj in Heq.
Qed.

Lemma hasLabelDocument_self call oid (docs : gmap string Document) :
  hasLabelDocument oid (addShippingLabel (thunk_label call oid) docs) = true.
Proof.
  apply hasLabelDocument_true.
  exists (label_id oid), (thunk_label call oid).
  split; [apply lookup_insert_eq|done].
Qed.

Lemma labels_keyed_addShippingLabel call oid (docs : gmap string Document) :
  labels_keyed docs →
  labels_keyed (addShippingLabel (thunk_label call oid) docs).
Proof.
  intros Hkeyed k d Hk Ht. unfold addShippingLabel in Hk.
  cbn [doc_id thunk_label] in Hk.
  destruct (decide (label_id oid = k)) as [<-|Hk'].
  - rewrite lookup_insert_eq in Hk. by injection Hk as <-.
  - rewrite lookup_insert_ne in Hk by done. by apply Hkeyed.
Qed.

(** A completed advance of a stored order to a status other than OPEN keeps
    the store consistent. *)
Lemma consistent_all_written MOCK call oid status s :
  consistent s → is_Some (orders s !! oid) → status ≠ OPEN →
  consistent (all_written MOCK call oid status s).
Proof.
  intros [Hinv Hkeyed] [o Ho] Hst. split.
  - intros oid' o' Ho'. cbn in Ho'. cbn [documents all_written label_written
      write_localStorage write_documents status_written write_orders].
    destruct (decide (oid = oid')) as [<-|Hne].
    + rewrite (updateOrderStatus_lookup _ _ _ o Ho) in Ho'.
      injection Ho' as <-. rewrite hasLabelDocument_self. cbn.
      symmetry. by apply bool_decide_eq_true_2.
    + rewrite updateOrderStatus_other in Ho' by done.
      rewrite hasLabelDocument_other by done. by apply Hinv.
  - cbn. by apply labels_keyed_addShippingLabel.
Qed.

Lemma consistent_seeded env : consistent (seeded_store env).
Proof.
  split.
  - assert (H : map_Forall
                  (λ oid o, hasLabelDocument oid (seeded_documents env)
                            = bool_decide (order_status o ≠ OPEN))
                  (MOCK_ORDERS env)) by by_decision.
    exact H.
  - assert (H : map_Forall
                  (λ k d, doc_type d = Label → k = label_id (orderId d))
                  (seeded_documents env)) by by_decision.
    exact H.
Qed.

Lemma settled_consistent env s : settled env s → consistent s.
Proof.
  induction 1 as [s Hs|s call oid status _ IH Ho Hst Hok].
  - rewrite initial_store_seeded in Hs. injection Hs as <-.
    apply consistent_seeded.
  - apply succeeded_no_throw in Hok as [Hl Hs].
    rewrite thunk_completes by done. cbn [final].
    by apply consistent_all_written.
Qed.

(** The claim C2 fails on the loaded store: during the advance of ORD340001
    to SHIPPED the subscribers are shown a state in which the order is
    SHIPPED and has no Label yet. *)
Lemma C2_label_missing_between_dispatches :
  ¬ spec_label_invariant_always demo_MOCK demo_call "ORD340001" SHIPPED demo_store.
Proof.
  intros H.
  assert (Hinit : spec_label_invariant demo_store).
  { apply (settled_consistent demo_seed), settled_initial, demo_store_loaded. }
  specialize (H Hinit (status_written "ORD340001" SHIPPED demo_store)).
  rewrite thunk_completes in H by done.
  specialize (H ltac:(apply list_elem_of_here)
                "ORD340001" (with_status SHIPPED (open_order demo_seed))
                ltac:(by_evaluation)).
  vm_compute in H. discriminate.
Qed.

(** C2, amended: in the loaded store, and in every state that runs of the
    thunk which throw nowhere and set an order of the store to a status other
    than OPEN leave behind, a Label document exists for an order of the store
    exactly when the order's status is not OPEN.  (The equivalence is not
    claimed for the state published between the two dispatches of a run.) *)
Theorem C2_label_iff_not_open_when_settled (env : SeedEnv) (s : Store) :
  settled env s → spec_label_invariant s.
Proof. intros H. by apply (settled_consistent env). Qed.

Lemma C2_label_iff_not_open_when_settled_witness :
  spec_label_invariant demo_shipped.
Proof.
  apply (C2_label_iff_not_open_when_settled demo_seed demo_shipped).
  apply (settled_advance demo_seed demo_store demo_call "ORD340001" SHIPPED).
  - apply settled_initial, initial_store_seeded.
  - exists (open_order demo_seed). by_evaluation.
  - discriminate.
  - by_evaluation.
Defined.

(** * Reproducibility *)

Lemma thunk_same_call MOCK call1 call2 oid status s :
  same_call oid call1 call2 →
  updateOrderStatusAndGenerateLabel MOCK call1 oid status s
  = updateOrderStatusAndGenerateLabel MOCK call2 oid status s.
Proof.
  intros Hsame. pose proof (thunk_label_same_call oid call1 call2 Hsame) as Hlab.
  destruct Hsame as (_ & Hl & Hs & _).
  destruct (label_dispatch_throws call1) eqn:Hl1.
  - by rewrite !thunk_label_throws.
  - destruct (setItem_throws call1) eqn:Hs1.
    + rewrite !thunk_setItem_throws by done.
      unfold label_written. by rewrite Hlab.
    + rewrite !thunk_completes by done.
      unfold all_written, label_written. by rewrite Hlab.
Qed.

Lemma MOCK_ORDERS_entries_same env1 env2 :
  same_readings env1 env2 →
  MOCK_ORDERS_entries env1 = MOCK_ORDERS_entries env2.
Proof.
  intros (Hload & Horders & _). unfold MOCK_ORDERS_entries. f_equal.
  - unfold open_order. by rewrite Hload.
  - apply map_ext_in. intros i Hi. apply in_seq in Hi.
    unfold past_order. rewrite Horders by lia. reflexivity.
Qed.

Lemma shipment_step_counter env st k st' :
  shipment_step env st k = Some st' → st'.1 = S st.1.
Proof.
  unfold shipment_step. intros H.
  apply bind_Some in H as (o & _ & H).
  apply bind_Some in H as (shp & _ & H).
  by injection H as <-.
Qed.

Lemma shipment_loop_same env1 env2 (l : list string) st :
  MOCK_ORDERS env1 = MOCK_ORDERS env2 →
  (∀ j, (st.1 ≤ j < st.1 + length l)%nat →
        shipment_draw env1 j = shipment_draw env2 j) →
  forEach_throwing (shipment_step env1) l st
  = forEach_throwing (shipment_step env2) l st.
Proof.
  intros HM. revert st. induction l as [|k l IH]; intros st Hdraw; [done|].
  rewrite !forEach_throwing_cons.
  assert (Hstep : shipment_step env1 st k = shipment_step env2 st k).
  { unfold shipment_step. rewrite HM, Hdraw; [done|]. cbn. lia. }
  rewrite Hstep. destruct (shipment_step env2 st k) as [st'|] eqn:E; [|done].
  apply IH. intros j Hj. apply Hdraw.
  apply shipment_step_counter in E. cbn. lia.
Qed.

Lemma MOCK_ORDERS_keys_length env : length (MOCK_ORDERS_keys env) = 30.
Proof. reflexivity. Qed.

Lemma MOCK_DOCUMENTS_same env1 env2 shps :
  MOCK_ORDERS_entries env1 = MOCK_ORDERS_entries env2 →
  MOCK_DOCUMENTS env1 shps = MOCK_DOCUMENTS env2 shps.
Proof.
  intros H. unfold MOCK_DOCUMENTS, document_step, MOCK_ORDERS_keys, MOCK_ORDERS.
  by rewrite H.
Qed.

Lemma initial_store_same env1 env2 :
  same_readings env1 env2 → initial_store env1 = initial_store env2.
Proof.
  intros Hsame.
  pose proof (MOCK_ORDERS_entries_same env1 env2 Hsame) as Hentries.
  assert (HM : MOCK_ORDERS env1 = MOCK_ORDERS env2)
    by (unfold MOCK_ORDERS; by rewrite Hentries).
  assert (Hshp : seeded_shipments env1 = seeded_shipments env2).
  { assert (H : MOCK_SHIPMENTS env1 = MOCK_SHIPMENTS env2).
    { unfold MOCK_SHIPMENTS, MOCK_ORDERS_keys. rewrite Hentries.
      f_equal. apply shipment_loop_same; [done|].
      intros j Hj. apply Hsame.
      change (length (MOCK_ORDERS_entries env2).*1)
        with (length (MOCK_ORDERS_keys env2)) in Hj.
      rewrite MOCK_ORDERS_keys_length in Hj. cbn in Hj. lia. }
    rewrite !MOCK_SHIPMENTS_seeded in H. exact (inj Some _ _ H). }
  assert (Hdoc : seeded_documents env1 = seeded_documents env2).
  { apply (inj Some). rewrite <- !MOCK_DOCUMENTS_seeded, Hshp.
    by apply MOCK_DOCUMENTS_same. }
  rewrite !initial_store_seeded. apply (f_equal Some).
  unfold seeded_store. by rewrite HM, Hshp, Hdoc.
Qed.

(** The claim C10 fails on the loaded store: two runs of the advance of
    ORD340001 on the same state that draw different numbers give Labels with
    different tracking numbers; and two loads with the same orders whose
    shipment loops draw differently give different shipments. *)
Lemma C10_draws_change_the_result :
  ¬ spec_advance_deterministic demo_MOCK demo_call demo_call_other_draw
      "ORD340001" SHIPPED demo_store
  ∧ ¬ spec_seed_deterministic demo_seed demo_seed_other.
Proof.
  split.
  - unfold spec_advance_deterministic. intros H.
    apply (f_equal (λ s, trackingNumber <$> documents s !! "DOC-ORD340001-LABEL")) in H.
    vm_compute in H. discriminate.
  - intros H.
    destruct (H ltac:(by_evaluation) (seeded_store demo_seed)
                (seeded_store demo_seed_other)
                (initial_store_seeded _) (initial_store_seeded _)) as [Hs _].
    apply (f_equal (λ m, carrier <$> m !! "SHP-ORD340001")) in Hs.
    vm_compute in Hs. discriminate.
Qed.

(** C10, amended: the advance and the seeding are reproducible relative to
    what they read from the outside world.  Two runs of the thunk on the same
    state that read the same clock, meet the same failures and draw the same
    number (or concern the id ['ORD34001'], for which the carrier DHL Express
    and the tracking number DHL7890123456 are fixed and nothing is drawn) are
    identical, published states included; two loads whose clock reading and
    draws agree on every reading the loops make give the same store. *)
Theorem C10_reproducible_given_readings
    (MOCK : gmap string Order) (call1 call2 : ThunkEnv) (oid status : string)
    (s : Store) (env1 env2 : SeedEnv) :
  same_call oid call1 call2 →
  same_readings env1 env2 →
  updateOrderStatusAndGenerateLabel MOCK call1 oid status s
  = updateOrderStatusAndGenerateLabel MOCK call2 oid status s
  ∧ initial_store env1 = initial_store env2.
Proof.
  intros Hcall Hseed. split.
  - by apply thunk_same_call.
  - by apply initial_store_same.
Qed.

Lemma C10_reproducible_given_readings_witness :
  random_tracking demo_call ≠ random_tracking demo_call_other_draw
  ∧ order_draw demo_seed 0 ≠ order_draw demo_seed_unread 0
  ∧ updateOrderStatusAndGenerateLabel demo_MOCK demo_call "ORD34001" SHIPPED demo_store
    = updateOrderStatusAndGenerateLabel demo_MOCK demo_call_other_draw
        "ORD34001" SHIPPED demo_store
  ∧ initial_store demo_seed = initial_store demo_seed_unread.
Proof.
  split; [discriminate|].
  split; [discriminate|].
  apply (C10_reproducible_given_readings demo_MOCK demo_call
           demo_call_other_draw "ORD34001" SHIPPED demo_store
           demo_seed demo_seed_unread).
  - repeat split. by left.
  - split; [reflexivity|]. split.
    + intros i Hi. cbn [order_draw demo_seed_unread].
      destruct i as [|i]; [lia|reflexivity].
    + intros j Hj. cbn [shipment_draw demo_seed_unread].
      destruct (Nat.leb_spec 30 j); [lia|reflexivity].
Defined.
